(** * DataInsight dashboard (app.py): a shallow embedding

    The program is a Streamlit page over three libraries: pandas (tables),
    seaborn/matplotlib (charts) and google.generativeai (the remote model).
    The repository's own code is the orchestration in [get_mock_data],
    [generate_insight] and the chart block of the page layout.  Library
    calls are kept as what the code sees of them: a call that is recorded
    in a trace and either returns a value or raises. *)

From Stdlib Require Import String Ascii List ZArith QArith Bool Arith Lia.
Import ListNotations.
Close Scope Q_scope.
Local Open Scope string_scope.

Set Implicit Arguments.

(** ** Python values the code observes *)

(** An instance of Python's [Exception]; [str(e)] is its message. *)
Inductive PyException : Type :=
| Exception (message : string).

Definition str (e : PyException) : string :=
  match e with Exception m => m end.

(** The result of evaluating a Python expression. *)
Inductive result (A : Type) : Type :=
| Returns (a : A)
| Raises (e : PyException).

Arguments Returns {A} a.
Arguments Raises {A} e.

(** An attribute of a duck-typed object as [hasattr] and attribute access
    see it: missing ([AttributeError]), raising something else when read,
    or holding a value. *)
Inductive attr (A : Type) : Type :=
| Absent
| Raising (e : PyException)
| Present (a : A).

Arguments Absent {A}.
Arguments Raising {A} e.
Arguments Present {A} a.

(** [hasattr(obj, name)]: false on [AttributeError], any other exception
    raised by the read propagates. *)
Definition hasattr {A} (a : attr A) : result bool :=
  match a with
  | Absent => Returns false
  | Raising e => Raises e
  | Present _ => Returns true
  end.

(** [not s] for a [str]. *)
Definition is_empty (s : string) : bool :=
  match s with
  | EmptyString => true
  | String _ _ => false
  end.

(** [not l] for a sequence. *)
Definition is_nil {A} (l : list A) : bool :=
  match l with
  | [] => true
  | _ :: _ => false
  end.

(** Line feed, as it occurs inside the triple-quoted templates. *)
Definition nl : string := String (ascii_of_nat 10) EmptyString.

(** ** pandas tables *)

Module pd.

(** Column data by dtype.  Float literals are kept as the exact value of
    their decimal literal. *)
Inductive Series : Type :=
| Int64 (values : list Z)
| Float64 (values : list Q)
| Bool (values : list bool)
| Object (values : list string).

(** A frame built from a dict: its columns in declaration order. *)
Definition DataFrame : Type := list (string * Series).

Definition size (s : Series) : nat :=
  match s with
  | Int64 v => length v
  | Float64 v => length v
  | Bool v => length v
  | Object v => length v
  end.

(** [include=['number']]: integer and float dtypes, not bool or object. *)
Definition is_number (s : Series) : bool :=
  match s with
  | Int64 _ | Float64 _ => true
  | Bool _ | Object _ => false
  end.

Definition columns (df : DataFrame) : list string := map fst df.

(** [df.select_dtypes(include=['number']).columns] *)
Definition select_dtypes_number (df : DataFrame) : DataFrame :=
  filter (fun c => is_number (snd c)) df.

(** [len(df)]: the length of the shared row index. *)
Definition len (df : DataFrame) : nat :=
  match df with
  | [] => 0
  | (_, s) :: _ => size s
  end.

End pd.

(** ** google.generativeai objects *)

Module genai.

(** A content part of an answer. *)
Inductive Part : Type :=
| TextPart (t : string).

(** An enum member such as a finish or block reason: its [.name] and its
    truth value. *)
Record Reason : Type := {
  name : result string;
  reason_truthy : bool
}.

Record Feedback : Type := {
  feedback_truthy : bool;
  block_reason : attr Reason
}.

Record Candidate : Type := {
  finish_reason : result Reason
}.

(** What [generate_content] hands back; every attribute read may raise.
    [prompt_feedback] reads as [None] when the object is Python's None. *)
Record Response : Type := {
  parts : result (list Part);
  text : result string;
  prompt_feedback : result (option Feedback);
  candidates : result (list Candidate)
}.

(** A [GenerativeModel] handle. *)
Record Model : Type := {
  model_name : string
}.

End genai.

Import genai.

(** ** The libraries as the page calls them *)

(** What the outside does on each call.  [generate_content] answers for the
    credential installed by the last successful [configure]. *)
Record World : Type := {
  configure : string -> result unit;
  GenerativeModel : string -> result unit;
  generate_content : option string -> string -> string -> result Response;
  describe_to_string : pd.DataFrame -> result string
}.

Inductive Event : Type :=
| CallConfigure (api_key : string)
| CallGenerativeModel (model : string)
| CallDescribe (df : pd.DataFrame)
| CallGenerateContent (model : string) (prompt : string).

(** Calls that go to the generative-AI client. *)
Definition is_outbound (ev : Event) : bool :=
  match ev with
  | CallConfigure _ | CallGenerativeModel _ | CallGenerateContent _ _ => true
  | CallDescribe _ => false
  end.

Definition is_describe (ev : Event) : bool :=
  match ev with
  | CallDescribe _ => true
  | _ => false
  end.

Definition outbound_calls (tr : list Event) : list Event := filter is_outbound tr.
Definition describe_calls (tr : list Event) : list Event := filter is_describe tr.

Fixpoint prompts_submitted (tr : list Event) : list string :=
  match tr with
  | [] => []
  | CallGenerateContent _ p :: tr' => p :: prompts_submitted tr'
  | _ :: tr' => prompts_submitted tr'
  end.

(** Process state: the credential held by the genai module and the calls
    made so far, oldest first. *)
Record State : Type := {
  credential : option string;
  trace : list Event
}.

Definition fresh : State := {| credential := None; trace := [] |}.

Definition log (ev : Event) (s : State) : State :=
  {| credential := credential s; trace := (trace s ++ [ev])%list |}.

(** ** Computations: state passing with exceptions *)

Definition M (A : Type) : Type := State -> result A * State.

Definition ret {A} (a : A) : M A := fun s => (Returns a, s).

Definition bind {A B} (m : M A) (k : A -> M B) : M B :=
  fun s =>
    match m s with
    | (Returns a, s') => k a s'
    | (Raises e, s') => (Raises e, s')
    end.

(** [try: body / except Exception as e: handler e] *)
Definition try_except {A} (body : M A) (handler : PyException -> M A) : M A :=
  fun s =>
    match body s with
    | (Returns a, s') => (Returns a, s')
    | (Raises e, s') => handler e s'
    end.

(** A read that touches no library state. *)
Definition eval {A} (r : result A) : M A := fun s => (r, s).

(** A library call: recorded, then returning or raising. *)
Definition call {A} (ev : Event) (r : result A) : M A :=
  fun s => (r, log ev s).

Declare Scope py_scope.
Delimit Scope py_scope with py.
Notation "x <- m ;; k" := (bind m (fun x => k))
  (at level 61, m at next level, right associativity) : py_scope.
Notation "m ;; k" := (bind m (fun _ => k))
  (at level 61, right associativity) : py_scope.
Local Open Scope py_scope.

(** [genai.configure(api_key=k)]: on success the module keeps [k]. *)
Definition genai_configure (w : World) (k : string) : M unit :=
  fun s =>
    match configure w k with
    | Returns tt =>
        (Returns tt, {| credential := Some k; trace := (trace s ++ [CallConfigure k])%list |})
    | Raises e => (Raises e, log (CallConfigure k) s)
    end.

(** [genai.GenerativeModel(n)] *)
Definition genai_GenerativeModel (w : World) (n : string) : M Model :=
  _ <- call (CallGenerativeModel n) (GenerativeModel w n) ;;
  ret {| model_name := n |}.

(** [model.generate_content(prompt)] *)
Definition model_generate_content (w : World) (model : Model) (prompt : string) : M Response :=
  fun s =>
    (generate_content w (credential s) (model_name model) prompt,
     log (CallGenerateContent (model_name model) prompt) s).

(** [df.describe().to_string()] *)
Definition df_describe_to_string (w : World) (df : pd.DataFrame) : M string :=
  call (CallDescribe df) (describe_to_string w df).

(** ** app.py *)

(** The two options of the sidebar's domain selector. *)
Definition TRAFFIC : string := "智慧交通 (Traffic)".
Definition FACTORY : string := "智慧工廠 (Factory)".

Definition Time_labels : list string :=
  ["08:00"; "09:00"; "10:00"; "11:00"; "12:00"; "13:00"; "14:00"].

Definition get_mock_data (domain : string) : pd.DataFrame :=
  if (domain =? TRAFFIC)%string then
    [ ("Time", pd.Object Time_labels);
      ("Flow (veh/hr)", pd.Int64 [1200; 800; 400; 350; 450; 400; 380]%Z);
      ("Speed (km/h)", pd.Int64 [15; 30; 60; 65; 60; 62; 65]%Z);
      ("Occupancy (%)", pd.Int64 [85; 60; 20; 15; 25; 20; 18]%Z) ]
  else
    [ ("Time", pd.Object Time_labels);
      ("Temperature (C)", pd.Int64 [60; 65; 85; 90; 70; 65; 62]%Z);
      ("Vibration (mm/s)", pd.Float64 [0.5; 0.6; 2.8; 3.1; 0.8; 0.6; 0.5]%Q);
      ("Output (units)", pd.Int64 [100; 98; 40; 35; 95; 100; 100]%Z) ].

Definition MISSING_KEY_REPORT : string :=
  "⚠️ 請輸入 Google API Key 以獲取 AI 深度解讀報告。".

Definition MODEL_NAME : string := "gemini-flash-latest".

Definition config_error_report (e : PyException) : string :=
  "API 設定錯誤: " ++ str e.

Definition GENERATION_ERROR_PREFIX : string := "生成錯誤: ".

Definition generation_error_report (e : PyException) : string :=
  GENERATION_ERROR_PREFIX ++ str e.

Definition UNKNOWN : string := "未知".
Definition NOT_PROVIDED : string := "未提供".

Definition blocked_report (finish_reason block_reason : string) : string :=
  "生成內容被阻擋或為空。結束原因: " ++ finish_reason
  ++ "。阻擋原因: " ++ block_reason ++ "。請檢查提示詞或安全設定。".

Definition FALLBACK_REPORT : string :=
  "生成內容為空，且無法讀取詳細的回饋資訊。請檢查 API 金鑰與模型權限。".

(** The persona sentence of each branch. *)
Definition role_prompt (domain : string) : string :=
  if (domain =? TRAFFIC)%string
  then "你是一位資深的交通數據分析師。"
  else "你是一位資深的工廠設備維運工程師。".

(** The indentation every line of the triple-quoted templates carries. *)
Definition indent : string := "        ".

(** The f-string of each branch, line by line. *)
Definition task_prompt (domain stats : string) : string :=
  if (domain =? TRAFFIC)%string then
    nl ++ indent ++ role_prompt domain
    ++ nl ++ indent ++ "請分析以下交通數據統計值："
    ++ nl ++ indent ++ stats
    ++ nl ++ indent
    ++ nl ++ indent ++ "重點觀察："
    ++ nl ++ indent ++ "1. 車流 (Flow) 與 車速 (Speed) 的關係。"
    ++ nl ++ indent ++ "2. 是否有壅塞發生？(提示：低速、高佔有率)"
    ++ nl ++ indent ++ "3. 給出 3 點交通疏導建議。"
    ++ nl ++ indent ++ "請用繁體中文回答。"
    ++ nl ++ indent
  else
    nl ++ indent ++ role_prompt domain
    ++ nl ++ indent ++ "請分析以下機台感測數據統計值："
    ++ nl ++ indent ++ stats
    ++ nl ++ indent
    ++ nl ++ indent ++ "重點觀察："
    ++ nl ++ indent ++ "1. 溫度 (Temperature) 與 震動 (Vibration) 是否有異常飆高？"
    ++ nl ++ indent ++ "2. 產量 (Output) 是否受到影響？"
    ++ nl ++ indent ++ "3. 給出 3 點設備維護建議。"
    ++ nl ++ indent ++ "請用繁體中文回答。"
    ++ nl ++ indent.

(** [feedback.block_reason.name if feedback and hasattr(feedback,
    'block_reason') and feedback.block_reason else "未提供"] *)
Definition read_block_reason (feedback : option Feedback) : result string :=
  match feedback with
  | None => Returns NOT_PROVIDED
  | Some fb =>
      if feedback_truthy fb then
        match hasattr (block_reason fb) with
        | Raises e => Raises e
        | Returns false => Returns NOT_PROVIDED
        | Returns true =>
            match block_reason fb with
            | Present br => if reason_truthy br then name br else Returns NOT_PROVIDED
            | Raising e => Raises e
            | Absent => Returns NOT_PROVIDED
            end
        end
      else Returns NOT_PROVIDED
  end.

(** [finish_reason = "未知"], replaced by
    [response.candidates[0].finish_reason.name] when there are candidates. *)
Definition read_finish_reason (response : Response) : result string :=
  match candidates response with
  | Raises e => Raises e
  | Returns [] => Returns UNKNOWN
  | Returns (c :: _) =>
      match finish_reason c with
      | Raises e => Raises e
      | Returns fr => name fr
      end
  end.

(** The body of the inner [try] (lines 93-100). *)
Definition read_diagnostics (response : Response) : M string :=
  feedback <- eval (prompt_feedback response) ;;
  block_reason <- eval (read_block_reason feedback) ;;
  finish_reason <- eval (read_finish_reason response) ;;
  ret (blocked_report finish_reason block_reason).

Definition generate_insight (w : World) (df : pd.DataFrame) (domain api_key : string)
  : M string :=
  if is_empty api_key then ret MISSING_KEY_REPORT
  else
    setup <- try_except
               (genai_configure w api_key ;;
                model <- genai_GenerativeModel w MODEL_NAME ;;
                ret (inl model))
               (fun e => ret (inr (config_error_report e))) ;;
    match setup with
    | inr report => ret report
    | inl model =>
        stats <- df_describe_to_string w df ;;
        try_except
          (response <- model_generate_content w model (task_prompt domain stats) ;;
           ps <- eval (parts response) ;;
           if is_nil ps then
             try_except (read_diagnostics response) (fun _ => ret FALLBACK_REPORT)
           else eval (text response))
          (fun e => ret (generation_error_report e))
    end.

(** *** The chart block of the page layout *)

Inductive Axes : Type :=
| ax   (* the axes made by [plt.subplots()] *)
| ax2. (* [ax.twinx()] *)

Inductive PlotCall : Type :=
| plt_subplots
| sns_lineplot (data : pd.DataFrame) (x y : string) (on : Axes)
               (color : option string) (label : string)
| ax_twinx
| st_pyplot.

(** Lines 126-132: the plotting calls of the block for a table, in the
    order the block reaches them.  The script issues them one after the
    other through the front end, where each may raise and end the run. *)
Definition chart_block (df : pd.DataFrame) : list PlotCall :=
  let numeric_cols := pd.columns (pd.select_dtypes_number df) in
  (plt_subplots ::
   if (2 <=? length numeric_cols)%nat then
     [ sns_lineplot df "Time" (nth 0 numeric_cols "") ax None (nth 0 numeric_cols "");
       ax_twinx;
       sns_lineplot df "Time" (nth 1 numeric_cols "") ax2 (Some "orange") (nth 1 numeric_cols "");
       st_pyplot ]
   else [])%list.

Unset Implicit Arguments.

(** ** The page script *)

(** Where an element is placed. *)
Inductive Place : Type :=
| in_page
| in_sidebar
| in_col1
| in_col2.

(** The Streamlit and plotting calls of the script, with the arguments it
    passes. *)
Inductive Element : Type :=
| st_set_page_config (page_title layout page_icon : string)
| st_title (body : string)
| st_markdown (body : string)
| st_header (body : string)
| st_text_input (label kind : string)
| st_caption (body : string)
| st_selectbox (label : string) (options : list string)
| st_info (body : string)
| st_columns (spec : list nat)
| st_subheader (body : string)
| st_file_uploader (label : string) (kinds : list string)
| st_dataframe_highlight_max (df : pd.DataFrame) (axis : nat) (color : string)
| plot (c : PlotCall)
| st_button (label : string)
| st_spinner (text : string)
| st_write (body : string)
| st_success (body : string).

(** What the user has entered when the script runs. *)
Record Inputs : Type := {
  typed_key : string;
  selected : nat;
  uploaded_file : option string;
  button_pressed : bool
}.

(** The libraries behind the page: the ones [generate_insight] uses, the
    CSV reader, and the front end, any call of which may raise. *)
Record Site : Type := {
  libs : World;
  read_csv : string -> result pd.DataFrame;
  render : Place -> Element -> result unit
}.

(** State of a script run: the library state and the calls made to the
    front end so far, oldest first. *)
Record Page : Type := {
  backend : State;
  screen : list (Place * Element)
}.

Definition blank : Page := {| backend := fresh; screen := [] |}.

Definition P (A : Type) : Type := Page -> result A * Page.

Definition retP {A : Type} (a : A) : P A := fun p => (Returns a, p).

Definition bindP {A B : Type} (m : P A) (k : A -> P B) : P B :=
  fun p =>
    match m p with
    | (Returns a, p') => k a p'
    | (Raises e, p') => (Raises e, p')
    end.

Declare Scope page_scope.
Delimit Scope page_scope with page.
Notation "x <- m ;; k" := (bindP m (fun x => k))
  (at level 61, m at next level, right associativity) : page_scope.
Notation "m ;; k" := (bindP m (fun _ => k))
  (at level 61, right associativity) : page_scope.

(** A call to the front end: recorded, then returning or raising. *)
Definition show (site : Site) (pl : Place) (el : Element) : P unit :=
  fun p =>
    (render site pl el,
     {| backend := backend p; screen := (screen p ++ [(pl, el)])%list |}).

(** A widget call: shown, then handing back what the user entered. *)
Definition widget {A : Type} (site : Site) (pl : Place) (el : Element) (value : A) : P A :=
  bindP (show site pl el) (fun _ => retP value).

(** Calls made one after the other. *)
Fixpoint show_all (site : Site) (pl : Place) (els : list Element) : P unit :=
  match els with
  | [] => retP tt
  | el :: els' => bindP (show site pl el) (fun _ => show_all site pl els')
  end.

(** A computation over the library state, run inside the script. *)
Definition in_backend {A : Type} (m : M A) : P A :=
  fun p =>
    let (r, s') := m (backend p) in
    (r, {| backend := s'; screen := screen p |}).

(** A call that touches neither state. *)
Definition evalP {A : Type} (r : result A) : P A := fun p => (r, p).

(** [st.selectbox(label, options)]: the chosen option, the first one by
    default. *)
Definition selectbox (options : list string) (choice : nat) : string :=
  nth choice options (hd "" options).

Definition domain_options : list string := [TRAFFIC; FACTORY].

Definition SAMPLE_CAPTION : string := "目前使用範例數據 (可自行上傳 CSV 替換)".
Definition RESULT_HEADING : string := "### 📋 分析結果".
Definition SUCCESS_MESSAGE : string := "報告生成完成！".

(** Lines 116-120: the table of this run. *)
Definition load_table (site : Site) (uploaded : option string) (domain : string)
  : P pd.DataFrame :=
  match uploaded with
  | Some file => evalP (read_csv site file)
  | None =>
      let df := get_mock_data domain in
      bindP (show site in_col1 (st_caption SAMPLE_CAPTION)) (fun _ => retP df)
  end.

(** Lines 136-142: the analysis, run when the button is pressed. *)
Definition analysis (site : Site) (df : pd.DataFrame) (domain api_key : string)
  : P unit :=
  (show site in_col2 (st_spinner "Gemini 正在解讀數據趨勢...") ;;
   report <- in_backend (generate_insight (libs site) df domain api_key) ;;
   show site in_col2 (st_markdown RESULT_HEADING) ;;
   show site in_col2 (st_write report) ;;
   show site in_col2 (st_success SUCCESS_MESSAGE))%page.

(** The module's top level, run once per interaction. *)
Definition script (site : Site) (inp : Inputs) : P unit :=
  (show site in_page
     (st_set_page_config "DataInsight: 可解釋化數據助理 (Gemini版)" "wide" "📊") ;;
   show site in_page (st_title "📊 DataInsight: 交通/工業數據可解釋化助理") ;;
   show site in_page
     (st_markdown "**結合大數據分析流程與 Gemini API，自動生成數據洞察報告。**") ;;
   show site in_sidebar (st_header "設定") ;;
   api_key <- widget site in_sidebar (st_text_input "Google Gemini API Key" "password")
                (typed_key inp) ;;
   show site in_sidebar (st_caption "請至 Google AI Studio 申請免費 Key") ;;
   domain <- widget site in_sidebar (st_selectbox "選擇應用場域" domain_options)
               (selectbox domain_options (selected inp)) ;;
   show site in_sidebar (st_info "💡 此系統模擬數據工程師的分析流程：清洗 -> 統計 -> 解釋") ;;
   show site in_page (st_columns [1; 1]) ;;
   show site in_col1 (st_subheader "1. 數據輸入與視覺化") ;;
   uploaded <- widget site in_col1
                 (st_file_uploader "上傳 CSV (時間, 數值A, 數值B...)" ["csv"])
                 (uploaded_file inp) ;;
   df <- load_table site uploaded domain ;;
   show site in_col1 (st_dataframe_highlight_max df 0 "lightcoral") ;;
   show_all site in_col1 (map plot (chart_block df)) ;;
   show site in_col2 (st_subheader "2. AI 診斷報告 (Gemini XAI)") ;;
   pressed <- widget site in_col2 (st_button "🔍 開始分析數據") (button_pressed inp) ;;
   (if pressed then analysis site df domain api_key else retP tt) ;;
   show site in_page (st_markdown "---") ;;
   show site in_page
     (st_caption "Lab Project: Industrial & Traffic Data Analysis | Powered by Streamlit & Google Gemini"))%page.

(** ** Vocabulary of the statements *)

(** [t] occurs in [s]. *)
Definition Contains (t s : string) : Prop :=
  exists before after, s = before ++ t ++ after.

(** The state once the prompt has been submitted. *)
Definition submitted (df : pd.DataFrame) (domain api_key stats : string) (s : State) : State :=
  {| credential := Some api_key;
     trace := (trace s ++ [CallConfigure api_key; CallGenerativeModel MODEL_NAME;
                           CallDescribe df;
                           CallGenerateContent MODEL_NAME (task_prompt domain stats)])%list |}.





(** ** Stub transports and sample inputs *)

(** A world whose every call is fixed in advance. *)
Definition stub_world (cfg : result unit) (gen : result Response) (desc : result string)
  : World :=
  {| configure := fun _ => cfg;
     GenerativeModel := fun _ => Returns tt;
     generate_content := fun _ _ _ => gen;
     describe_to_string := fun _ => desc |}.

(** A response carrying one text part. *)
Definition answer (t : string) : Response :=
  {| parts := Returns [TextPart t];
     text := Returns t;
     prompt_feedback := Returns None;
     candidates := Returns [] |}.




(** A world that rejects every credential and cannot describe the table. *)
Definition rejecting_world : World :=
  stub_world (Raises (Exception "invalid key"))
             (Returns (answer "OK"))
             (Raises (Exception "no columns")).

(** An uploaded table with columns Time, A, B and five rows. *)
Definition uploaded_AB : pd.DataFrame :=
  [ ("Time", pd.Object ["t1"; "t2"; "t3"; "t4"; "t5"]);
    ("A", pd.Int64 [1; 2; 3; 4; 5]%Z);
    ("B", pd.Int64 [10; 20; 30; 40; 50]%Z) ].

(** ** Vocabulary for the page script *)

(** A front end none of whose calls raises. *)
Definition healthy (site : Site) : Prop :=
  forall (pl : Place) (el : Element), render site pl el = Returns tt.

(** The option picked in the sidebar. *)
Definition selected_domain (inp : Inputs) : string :=
  selectbox domain_options (selected inp).

(** The table of a run: the uploaded file as the CSV reader returns it, or
    the sample of the selected domain. *)
Definition table_of (site : Site) (inp : Inputs) : result pd.DataFrame :=
  match uploaded_file inp with
  | Some file => read_csv site file
  | None => Returns (get_mock_data (selected_domain inp))
  end.

(** The elements of the page, in the order the script issues them. *)
Definition page_head : list (Place * Element) :=
  [ (in_page, st_set_page_config "DataInsight: 可解釋化數據助理 (Gemini版)" "wide" "📊");
    (in_page, st_title "📊 DataInsight: 交通/工業數據可解釋化助理");
    (in_page, st_markdown "**結合大數據分析流程與 Gemini API，自動生成數據洞察報告。**");
    (in_sidebar, st_header "設定");
    (in_sidebar, st_text_input "Google Gemini API Key" "password");
    (in_sidebar, st_caption "請至 Google AI Studio 申請免費 Key");
    (in_sidebar, st_selectbox "選擇應用場域" domain_options);
    (in_sidebar, st_info "💡 此系統模擬數據工程師的分析流程：清洗 -> 統計 -> 解釋");
    (in_page, st_columns [1; 1]);
    (in_col1, st_subheader "1. 數據輸入與視覺化");
    (in_col1, st_file_uploader "上傳 CSV (時間, 數值A, 數值B...)" ["csv"]) ].

Definition page_table (inp : Inputs) (df : pd.DataFrame) : list (Place * Element) :=
  ((match uploaded_file inp with
    | Some _ => []
    | None => [(in_col1, st_caption SAMPLE_CAPTION)]
    end)
   ++ (in_col1, st_dataframe_highlight_max df 0 "lightcoral")
   :: map (pair in_col1) (map plot (chart_block df)))%list.

Definition page_trigger : list (Place * Element) :=
  [ (in_col2, st_subheader "2. AI 診斷報告 (Gemini XAI)");
    (in_col2, st_button "🔍 開始分析數據") ].

Definition page_spinner : Place * Element :=
  (in_col2, st_spinner "Gemini 正在解讀數據趨勢...").

Definition page_report (report : string) : list (Place * Element) :=
  [ (in_col2, st_markdown RESULT_HEADING);
    (in_col2, st_write report);
    (in_col2, st_success SUCCESS_MESSAGE) ].

Definition page_foot : list (Place * Element) :=
  [ (in_page, st_markdown "---");
    (in_page,
     st_caption "Lab Project: Industrial & Traffic Data Analysis | Powered by Streamlit & Google Gemini") ].

(** The page after further front-end calls. *)
Definition shown (p : Page) (els : list (Place * Element)) : Page :=
  {| backend := backend p; screen := (screen p ++ els)%list |}.

(** The chart block as the script runs it (lines 126-132). *)
Definition run_chart (site : Site) (df : pd.DataFrame) : P unit :=
  show_all site in_col1 (map plot (chart_block df)).

(** None of the plotting calls of the table raises. *)
Definition plots_return (site : Site) (df : pd.DataFrame) : Prop :=
  forall c : PlotCall, In c (chart_block df) -> render site in_col1 (plot c) = Returns tt.

Definition has_column (name : string) (df : pd.DataFrame) : bool :=
  existsb (String.eqb name) (pd.columns df).

(** A front end that treats a missing column the way seaborn does: a line
    plot whose x is not a column of its data raises, every other call
    returns. *)
Definition strict_render (pl : Place) (el : Element) : result unit :=
  match el with
  | plot (sns_lineplot data x _ _ _ _) =>
      if has_column x data then Returns tt
      else Raises (Exception "Could not interpret value `Time` for `x`")
  | _ => Returns tt
  end.

Definition strict_site (w : World) : Site :=
  {| libs := w;
     read_csv := fun _ => Raises (Exception "bad csv");
     render := strict_render |}.

(** An uploaded table whose time column carries the uploader's own label
    instead of the name Time. *)
Definition untimed_AB : pd.DataFrame :=
  [ ("時間", pd.Object ["t1"; "t2"; "t3"; "t4"; "t5"]);
    ("A", pd.Int64 [1; 2; 3; 4; 5]%Z);
    ("B", pd.Int64 [10; 20; 30; 40; 50]%Z) ].

(** A computation that leaves the library state as it found it. *)
Definition keeps_backend {A : Type} (m : P A) : Prop :=
  forall p : Page, backend (snd (m p)) = backend p.

(** A response whose parts hold no text: reading [text] raises. *)
Definition textless : Response :=
  {| parts := Returns [TextPart ""];
     text := Raises (Exception "not a text part");
     prompt_feedback := Returns None;
     candidates := Returns [] |}.

(** A site with a healthy front end over the given libraries. *)
Definition quiet_site (w : World) (csv : result pd.DataFrame) : Site :=
  {| libs := w; read_csv := fun _ => csv; render := fun _ _ => Returns tt |}.

(** A site whose front end fails on every call. *)
Definition broken_site (w : World) : Site :=
  {| libs := w;
     read_csv := fun _ => Raises (Exception "bad csv");
     render := fun _ _ => Raises (Exception "front end down") |}.

(** ** Proof support *)

Ltac unfold_py :=
  unfold read_diagnostics, genai_configure, genai_GenerativeModel,
         model_generate_content, df_describe_to_string,
         try_except, bind, ret, eval, call, log in *.

(** * Properties *)

(** ** Strings *)

Lemma append_assoc (a b c : string) : (a ++ b) ++ c = a ++ (b ++ c).
Proof.
  induction a as [|ch a IH]; simpl; [reflexivity | now rewrite IH].
Qed.

Lemma append_nil_r (a : string) : a ++ "" = a.
Proof.
  induction a as [|ch a IH]; simpl; [reflexivity | now rewrite IH].
Qed.

Lemma append_inv_head (p a b : string) : p ++ a = p ++ b -> a = b.
Proof.
  induction p as [|ch p IH]; simpl; intros H; [exact H|].
  injection H as H. auto.
Qed.

Lemma prefix_append (p s : string) : prefix p (p ++ s) = true.
Proof.
  induction p as [|ch p IH]; simpl.
  - now destruct s.
  - destruct (ascii_dec ch ch) as [_|N]; [exact IH | now elim N].
Qed.

Lemma Contains_here (t after : string) : Contains t (t ++ after).
Proof. exists "", after. reflexivity. Qed.

Lemma Contains_append_l (t p s : string) : Contains t s -> Contains t (p ++ s).
Proof.
  intros (b & a & ->). exists (p ++ b), a. now rewrite append_assoc.
Qed.

Lemma is_empty_false (s : string) : s <> "" -> is_empty s = false.
Proof. destruct s; [congruence | reflexivity]. Qed.

(** ** Traces *)

Lemma prompts_submitted_app (tr1 tr2 : list Event) :
  prompts_submitted (tr1 ++ tr2) = (prompts_submitted tr1 ++ prompts_submitted tr2)%list.
Proof.
  induction tr1 as [|ev tr1 IH]; simpl; [reflexivity|].
  destruct ev; simpl; now rewrite IH.
Qed.

Section SetUpSucceeds.

Variable w : World.
Variable df : pd.DataFrame.
Variables domain api_key : string.
Variable s : State.

Hypothesis key_given : api_key <> "".
Hypothesis configure_ok : configure w api_key = Returns tt.
Hypothesis model_ok : GenerativeModel w MODEL_NAME = Returns tt.

(** With the client set up, the function is the statistics step followed
    by the guarded generation step. *)
Lemma generate_insight_after_setup :
  generate_insight w df domain api_key s =
  match describe_to_string w df with
  | Raises e =>
      (Raises e,
       {| credential := Some api_key;
          trace := (trace s ++ [CallConfigure api_key; CallGenerativeModel MODEL_NAME;
                                CallDescribe df])%list |})
  | Returns stats =>
      (match generate_content w (Some api_key) MODEL_NAME (task_prompt domain stats) with
       | Raises e => Returns (generation_error_report e)
       | Returns response =>
           match parts response with
           | Raises e => Returns (generation_error_report e)
           | Returns [] =>
               match prompt_feedback response with
               | Raises _ => Returns FALLBACK_REPORT
               | Returns feedback =>
                   match read_block_reason feedback, read_finish_reason response with
                   | Returns blk, Returns fin => Returns (blocked_report fin blk)
                   | _, _ => Returns FALLBACK_REPORT
                   end
               end
           | Returns (_ :: _) =>
               match text response with
               | Raises e => Returns (generation_error_report e)
               | Returns t => Returns t
               end
           end
       end,
       submitted df domain api_key stats s)
  end.
Proof.
  unfold generate_insight, submitted. rewrite (is_empty_false _ key_given).
  unfold_py. rewrite configure_ok. simpl. rewrite model_ok. simpl.
  rewrite <- !app_assoc. simpl.
  destruct (describe_to_string w df) as [stats|e]; simpl; [|reflexivity].
  rewrite <- !app_assoc. simpl.
  destruct (generate_content w (Some api_key) MODEL_NAME (task_prompt domain stats))
    as [response|e]; simpl; [|reflexivity].
  destruct (parts response) as [[|p ps]|e]; simpl; [| |reflexivity].
  - destruct (prompt_feedback response) as [feedback|e]; simpl; [|reflexivity].
    destruct (read_block_reason feedback) as [blk|e]; simpl; [|reflexivity].
    destruct (read_finish_reason response) as [fin|e]; simpl; reflexivity.
  - destruct (text response) as [t|e]; reflexivity.
Qed.

End SetUpSucceeds.

(** ** The insight generator *)

(** C1: with a non-empty credential, a successful set-up and statistics
    step, a generation call that returns a response with at least one
    content part, and [response.text] reading as [t], the report returned
    is [t] itself. *)
Theorem generate_insight_answer_verbatim :
  forall (w : World) (df : pd.DataFrame) (domain api_key : string) (s : State)
         (stats : string) (response : Response) (p : Part) (ps : list Part) (t : string),
    api_key <> "" ->
    configure w api_key = Returns tt ->
    GenerativeModel w MODEL_NAME = Returns tt ->
    describe_to_string w df = Returns stats ->
    generate_content w (Some api_key) MODEL_NAME (task_prompt domain stats) = Returns response ->
    parts response = Returns (p :: ps) ->
    text response = Returns t ->
    fst (generate_insight w df domain api_key s) = Returns t.
Proof.
  intros w df domain api_key s stats response p ps t Hkey Hcfg Hmod Hdesc Hgen Hparts Htext.
  rewrite generate_insight_after_setup by assumption.
  rewrite Hdesc, Hgen, Hparts, Htext. reflexivity.
Qed.

Lemma generate_insight_answer_verbatim_witness :
  fst (generate_insight (stub_world (Returns tt) (Returns (answer "OK")) (Returns "count 5"))
         uploaded_AB TRAFFIC "secret" fresh) = Returns "OK".
Proof.
  apply (generate_insight_answer_verbatim
           (stub_world (Returns tt) (Returns (answer "OK")) (Returns "count 5"))
           uploaded_AB TRAFFIC "secret" fresh "count 5" (answer "OK") (TextPart "OK") [] "OK");
    solve [discriminate | reflexivity].
Defined.

(** C2: with an empty credential the missing-credential report is returned
    at once and the state is untouched: no configure, no model construction
    and no generate call is made. *)
Theorem generate_insight_empty_credential_no_calls :
  forall (w : World) (df : pd.DataFrame) (domain : string) (s : State),
    generate_insight w df domain "" s = (Returns MISSING_KEY_REPORT, s)
    /\ outbound_calls (trace (snd (generate_insight w df domain "" fresh))) = [].
Proof.
  intros w df domain s. split; reflexivity.
Qed.

(** C3: when the generation call raises, the function returns (does not
    raise) a report that starts with the generation-error prefix and
    contains the error's message. *)
Theorem generate_insight_transport_error_reported :
  forall (w : World) (df : pd.DataFrame) (domain api_key : string) (s : State)
         (stats : string) (e : PyException),
    api_key <> "" ->
    configure w api_key = Returns tt ->
    GenerativeModel w MODEL_NAME = Returns tt ->
    describe_to_string w df = Returns stats ->
    generate_content w (Some api_key) MODEL_NAME (task_prompt domain stats) = Raises e ->
    exists report : string,
      fst (generate_insight w df domain api_key s) = Returns report
      /\ report = GENERATION_ERROR_PREFIX ++ str e
      /\ prefix GENERATION_ERROR_PREFIX report = true
      /\ Contains (str e) report.
Proof.
  intros w df domain api_key s stats e Hkey Hcfg Hmod Hdesc Hgen.
  exists (generation_error_report e).
  rewrite generate_insight_after_setup by assumption.
  rewrite Hdesc, Hgen. unfold generation_error_report.
  repeat split.
  - apply prefix_append.
  - apply Contains_append_l. exists "", "". simpl. now rewrite append_nil_r.
Qed.

Lemma generate_insight_transport_error_reported_witness :
  exists report : string,
    fst (generate_insight
           (stub_world (Returns tt) (Raises (Exception "503 unavailable")) (Returns "count 7"))
           (get_mock_data FACTORY) FACTORY "secret" fresh) = Returns report
    /\ report = GENERATION_ERROR_PREFIX ++ "503 unavailable"
    /\ prefix GENERATION_ERROR_PREFIX report = true
    /\ Contains "503 unavailable" report.
Proof.
  apply (generate_insight_transport_error_reported
           (stub_world (Returns tt) (Raises (Exception "503 unavailable")) (Returns "count 7"))
           (get_mock_data FACTORY) FACTORY "secret" fresh "count 7"
           (Exception "503 unavailable"));
    solve [discriminate | reflexivity].
Defined.

(** C9 as stated fails: with a credential the client set-up rejects, the
    function returns the configuration-error report before the statistics
    step is reached, although computing the statistics of the table would
    raise. *)
Lemma describe_failure_not_reached_when_setup_fails :
  "bad" <> ""
  /\ describe_to_string rejecting_world [] = Raises (Exception "no columns")
  /\ generate_insight rejecting_world [] TRAFFIC "bad" fresh
     = (Returns "API 設定錯誤: invalid key",
        {| credential := None; trace := [CallConfigure "bad"] |}).
Proof.
  split; [discriminate | split; reflexivity].
Qed.

(** C9 (amended): when the client set-up succeeds and computing the
    statistics raises, the exception leaves [generate_insight] unhandled,
    and no prompt is submitted. *)
Theorem generate_insight_describe_failure_propagates :
  forall (w : World) (df : pd.DataFrame) (domain api_key : string) (s : State)
         (e : PyException),
    api_key <> "" ->
    configure w api_key = Returns tt ->
    GenerativeModel w MODEL_NAME = Returns tt ->
    describe_to_string w df = Raises e ->
    fst (generate_insight w df domain api_key s) = Raises e
    /\ trace (snd (generate_insight w df domain api_key s))
       = (trace s ++ [CallConfigure api_key; CallGenerativeModel MODEL_NAME;
                      CallDescribe df])%list.
Proof.
  intros w df domain api_key s e Hkey Hcfg Hmod Hdesc.
  rewrite generate_insight_after_setup by assumption.
  rewrite Hdesc. split; reflexivity.
Qed.

Lemma generate_insight_describe_failure_propagates_witness :
  fst (generate_insight
         (stub_world (Returns tt) (Returns (answer "OK")) (Raises (Exception "no columns")))
         [] TRAFFIC "secret" fresh) = Raises (Exception "no columns")
  /\ trace (snd (generate_insight
         (stub_world (Returns tt) (Returns (answer "OK")) (Raises (Exception "no columns")))
         [] TRAFFIC "secret" fresh))
     = ([] ++ [CallConfigure "secret"; CallGenerativeModel MODEL_NAME; CallDescribe []])%list.
Proof.
  apply (generate_insight_describe_failure_propagates
           (stub_world (Returns tt) (Returns (answer "OK")) (Raises (Exception "no columns")))
           [] TRAFFIC "secret" fresh (Exception "no columns"));
    solve [discriminate | reflexivity].
Defined.

(** C10: with an empty credential the report does not depend on the table
    or on what the libraries would do with it: the result is the same for
    every world and table (also one whose statistics step raises), and the
    statistics call is never made. *)
Theorem generate_insight_empty_credential_ignores_table :
  forall (w : World) (df : pd.DataFrame) (domain : string) (s : State),
    fst (generate_insight w df domain "" s) = Returns MISSING_KEY_REPORT
    /\ describe_calls (trace (snd (generate_insight w df domain "" fresh))) = []
    /\ (forall (w' : World) (df' : pd.DataFrame),
          generate_insight w' df' domain "" s = generate_insight w df domain "" s).
Proof.
  intros w df domain s. repeat split; reflexivity.
Qed.

(** A table whose statistics step raises still gets the missing-credential
    report when no credential is given. *)
Example empty_credential_with_failing_table :
  describe_to_string rejecting_world [] = Raises (Exception "no columns")
  /\ generate_insight rejecting_world [] FACTORY "" fresh = (Returns MISSING_KEY_REPORT, fresh).
Proof. split; reflexivity. Qed.

(** ** Empty or blocked answers *)









(** ** The sample tables *)

(** C5 as stated fails: the numeric columns of the Traffic sample are not
    named Flow, Speed and Occupancy. *)
Lemma traffic_numeric_columns_carry_units :
  pd.columns (pd.select_dtypes_number (get_mock_data TRAFFIC)) <> ["Flow"; "Speed"; "Occupancy"].
Proof.
  vm_compute. discriminate.
Qed.

(** C5 (amended): both samples have seven rows in every column, and their
    numeric columns are the documented quantities each followed by its unit
    in parentheses. *)
Theorem get_mock_data_shape :
  (pd.len (get_mock_data TRAFFIC) = 7
   /\ Forall (fun c => pd.size (snd c) = 7) (get_mock_data TRAFFIC)
   /\ pd.columns (pd.select_dtypes_number (get_mock_data TRAFFIC))
      = ["Flow (veh/hr)"; "Speed (km/h)"; "Occupancy (%)"]
   /\ Forall2 (fun short full => prefix short full = true)
        ["Flow"; "Speed"; "Occupancy"]
        (pd.columns (pd.select_dtypes_number (get_mock_data TRAFFIC))))
  /\ (pd.len (get_mock_data FACTORY) = 7
      /\ Forall (fun c => pd.size (snd c) = 7) (get_mock_data FACTORY)
      /\ pd.columns (pd.select_dtypes_number (get_mock_data FACTORY))
         = ["Temperature (C)"; "Vibration (mm/s)"; "Output (units)"]
      /\ Forall2 (fun short full => prefix short full = true)
           ["Temperature"; "Vibration"; "Output"]
           (pd.columns (pd.select_dtypes_number (get_mock_data FACTORY)))).
Proof.
  split; (split; [reflexivity | split; [|split; [reflexivity|]]]).
  - repeat constructor.
  - repeat constructor.
  - repeat constructor.
  - repeat constructor.
Qed.

(** ** The prompt builder *)

Lemma generate_insight_submits_one_prompt
      (w : World) (df : pd.DataFrame) (domain api_key : string) (s : State) (stats : string) :
  api_key <> "" ->
  configure w api_key = Returns tt ->
  GenerativeModel w MODEL_NAME = Returns tt ->
  describe_to_string w df = Returns stats ->
  prompts_submitted (trace (snd (generate_insight w df domain api_key s)))
  = (prompts_submitted (trace s) ++ [task_prompt domain stats])%list.
Proof.
  intros Hkey Hcfg Hmod Hdesc.
  rewrite generate_insight_after_setup by assumption.
  rewrite Hdesc. unfold submitted. simpl.
  now rewrite prompts_submitted_app.
Qed.

Lemma role_prompts_differ : role_prompt TRAFFIC <> role_prompt FACTORY.
Proof.
  vm_compute. discriminate.
Qed.

Lemma task_prompt_contains_role (domain stats : string) :
  Contains (role_prompt domain) (task_prompt domain stats).
Proof.
  unfold task_prompt.
  destruct (domain =? TRAFFIC)%string;
    do 2 apply Contains_append_l; apply Contains_here.
Qed.

Lemma task_prompts_differ (stats stats' : string) :
  task_prompt TRAFFIC stats <> task_prompt FACTORY stats'.
Proof.
  unfold task_prompt.
  replace (TRAFFIC =? TRAFFIC)%string with true by (symmetry; apply String.eqb_refl).
  replace (FACTORY =? TRAFFIC)%string with false by (vm_compute; reflexivity).
  intros H.
  apply append_inv_head in H. apply append_inv_head in H.
  revert H. unfold role_prompt.
  replace (TRAFFIC =? TRAFFIC)%string with true by (symmetry; apply String.eqb_refl).
  replace (FACTORY =? TRAFFIC)%string with false by (vm_compute; reflexivity).
  change "你是一位資深的交通數據分析師。" with ("你是一位資深的" ++ "交通數據分析師。").
  change "你是一位資深的工廠設備維運工程師。" with ("你是一位資深的" ++ "工廠設備維運工程師。").
  rewrite !append_assoc.
  intros H. apply append_inv_head in H.
  simpl in H. discriminate H.
Qed.

(** C7: two runs that reach the prompt with the same statistics text and
    the same domain submit the same prompt, whatever their tables,
    credentials and remote services; and for every statistics text the
    Traffic and Factory prompts each contain their own persona sentence,
    the two sentences differ, and so do the prompts. *)
Theorem task_prompt_deterministic_and_persona_distinct :
  forall (domain stats : string)
         (w1 w2 : World) (df1 df2 : pd.DataFrame) (k1 k2 : string) (s1 s2 : State),
    k1 <> "" -> configure w1 k1 = Returns tt -> GenerativeModel w1 MODEL_NAME = Returns tt ->
    describe_to_string w1 df1 = Returns stats ->
    k2 <> "" -> configure w2 k2 = Returns tt -> GenerativeModel w2 MODEL_NAME = Returns tt ->
    describe_to_string w2 df2 = Returns stats ->
    (exists prompt : string,
        prompts_submitted (trace (snd (generate_insight w1 df1 domain k1 s1)))
        = (prompts_submitted (trace s1) ++ [prompt])%list
        /\ prompts_submitted (trace (snd (generate_insight w2 df2 domain k2 s2)))
           = (prompts_submitted (trace s2) ++ [prompt])%list
        /\ prompt = task_prompt domain stats)
    /\ role_prompt TRAFFIC <> role_prompt FACTORY
    /\ Contains (role_prompt TRAFFIC) (task_prompt TRAFFIC stats)
    /\ Contains (role_prompt FACTORY) (task_prompt FACTORY stats)
    /\ task_prompt TRAFFIC stats <> task_prompt FACTORY stats.
Proof.
  intros domain stats w1 w2 df1 df2 k1 k2 s1 s2 K1 C1 M1 D1 K2 C2 M2 D2.
  split; [|split; [|split; [|split]]].
  - exists (task_prompt domain stats).
    split; [|split; [|reflexivity]];
      apply generate_insight_submits_one_prompt; assumption.
  - exact role_prompts_differ.
  - apply task_prompt_contains_role.
  - apply task_prompt_contains_role.
  - apply task_prompts_differ.
Qed.

Lemma task_prompt_deterministic_and_persona_distinct_witness :
  exists prompt : string,
    prompts_submitted
      (trace (snd (generate_insight
                     (stub_world (Returns tt) (Returns (answer "OK")) (Returns "count 7"))
                     (get_mock_data TRAFFIC) TRAFFIC "key-one" fresh)))
    = (prompts_submitted (trace fresh) ++ [prompt])%list
    /\ prompts_submitted
         (trace (snd (generate_insight
                        (stub_world (Returns tt) (Raises (Exception "quota")) (Returns "count 7"))
                        uploaded_AB TRAFFIC "key-two" fresh)))
       = (prompts_submitted (trace fresh) ++ [prompt])%list
    /\ prompt = task_prompt TRAFFIC "count 7".
Proof.
  apply (task_prompt_deterministic_and_persona_distinct TRAFFIC "count 7"
           (stub_world (Returns tt) (Returns (answer "OK")) (Returns "count 7"))
           (stub_world (Returns tt) (Raises (Exception "quota")) (Returns "count 7"))
           (get_mock_data TRAFFIC) uploaded_AB "key-one" "key-two" fresh fresh);
    solve [discriminate | reflexivity].
Defined.

(** ** The chart block *)

Lemma filter_cons_inv {A : Type} (f : A -> bool) (l : list A) (a : A) (t : list A) :
  filter f l = a :: t ->
  exists before rest,
    l = (before ++ a :: rest)%list
    /\ forallb (fun x => negb (f x)) before = true
    /\ f a = true
    /\ filter f rest = t.
Proof.
  induction l as [|x l IH]; simpl; [discriminate|].
  destruct (f x) eqn:Hx.
  - intros H. injection H as -> <-. exists [], l. simpl. auto.
  - intros H. destruct (IH H) as (before & rest & -> & Hb & Ha & Hr).
    exists (x :: before), rest. simpl. rewrite Hx. auto.
Qed.

(** The calls of the chart block for the Traffic sample: flow on the
    primary axes, speed on the twin axes. *)
Example chart_block_traffic_sample :
  chart_block (get_mock_data TRAFFIC)
  = [ plt_subplots;
      sns_lineplot (get_mock_data TRAFFIC) "Time" "Flow (veh/hr)" ax None "Flow (veh/hr)";
      ax_twinx;
      sns_lineplot (get_mock_data TRAFFIC) "Time" "Speed (km/h)" ax2 (Some "orange")
                   "Speed (km/h)";
      st_pyplot ].
Proof. reflexivity. Qed.

(** * Further properties of the code *)

(** ** The configuration step *)

(** When [genai.configure] raises, or the model handle cannot be built, the
    function returns the configuration-error report carrying the message;
    the statistics step and the generation call are not reached. *)
Theorem generate_insight_configuration_error :
  forall (w : World) (df : pd.DataFrame) (domain api_key : string) (s : State)
         (e : PyException),
    api_key <> "" ->
    (configure w api_key = Raises e ->
     generate_insight w df domain api_key s
     = (Returns ("API 設定錯誤: " ++ str e),
        {| credential := credential s;
           trace := (trace s ++ [CallConfigure api_key])%list |}))
    /\ (configure w api_key = Returns tt ->
        GenerativeModel w MODEL_NAME = Raises e ->
        generate_insight w df domain api_key s
        = (Returns ("API 設定錯誤: " ++ str e),
           {| credential := Some api_key;
              trace := (trace s ++ [CallConfigure api_key;
                                    CallGenerativeModel MODEL_NAME])%list |})).
Proof.
  intros w df domain api_key s e Hkey. unfold generate_insight.
  rewrite (is_empty_false _ Hkey). unfold_py. split.
  - intros Hcfg. rewrite Hcfg. reflexivity.
  - intros Hcfg Hmod. rewrite Hcfg. simpl. rewrite Hmod. simpl.
    rewrite <- app_assoc. reflexivity.
Qed.

Lemma generate_insight_configuration_error_witness :
  generate_insight rejecting_world uploaded_AB TRAFFIC "bad" fresh
  = (Returns ("API 設定錯誤: " ++ "invalid key"),
     {| credential := None; trace := ([] ++ [CallConfigure "bad"])%list |}).
Proof.
  apply (generate_insight_configuration_error
           rejecting_world uploaded_AB TRAFFIC "bad" fresh (Exception "invalid key"));
    solve [discriminate | reflexivity].
Defined.

(** ** What can leave the function *)

(** An exception leaves [generate_insight] exactly when the credential is
    given, the client is set up, and the statistics step raises it: every
    other failure comes back as a report. *)
Theorem generate_insight_raises_only_from_describe :
  forall (w : World) (df : pd.DataFrame) (domain api_key : string) (s : State)
         (e : PyException),
    fst (generate_insight w df domain api_key s) = Raises e
    <-> (api_key <> ""
         /\ configure w api_key = Returns tt
         /\ GenerativeModel w MODEL_NAME = Returns tt
         /\ describe_to_string w df = Raises e).
Proof.
  intros w df domain api_key s e. split.
  - destruct api_key as [|c k]; [discriminate|].
    destruct (configure w (String c k)) as [[]|e1] eqn:Hcfg.
    + destruct (GenerativeModel w MODEL_NAME) as [[]|e2] eqn:Hmod.
      * rewrite generate_insight_after_setup by (assumption || discriminate).
        destruct (describe_to_string w df) as [stats|e3]; simpl.
        -- destruct (generate_content w (Some (String c k)) MODEL_NAME
                       (task_prompt domain stats)) as [r|e4]; [|discriminate].
           destruct (parts r) as [[|p ps]|e5]; [| |discriminate].
           ++ destruct (prompt_feedback r) as [fb|e6]; [|discriminate].
              destruct (read_block_reason fb); [|discriminate].
              destruct (read_finish_reason r); discriminate.
           ++ destruct (text r); discriminate.
        -- intros H. injection H as ->. repeat split. discriminate.
      * unfold generate_insight. unfold_py. simpl. rewrite Hcfg. simpl.
        rewrite Hmod. discriminate.
    + unfold generate_insight. unfold_py. simpl. rewrite Hcfg. discriminate.
  - intros (Hkey & Hcfg & Hmod & Hdesc).
    rewrite generate_insight_after_setup by assumption.
    now rewrite Hdesc.
Qed.

Lemma generate_insight_raises_only_from_describe_witness :
  "secret" <> ""
  /\ configure (stub_world (Returns tt) (Returns (answer "OK")) (Raises (Exception "no columns")))
       "secret" = Returns tt
  /\ GenerativeModel
       (stub_world (Returns tt) (Returns (answer "OK")) (Raises (Exception "no columns")))
       MODEL_NAME = Returns tt
  /\ describe_to_string
       (stub_world (Returns tt) (Returns (answer "OK")) (Raises (Exception "no columns")))
       [] = Raises (Exception "no columns").
Proof.
  apply (generate_insight_raises_only_from_describe
           (stub_world (Returns tt) (Returns (answer "OK")) (Raises (Exception "no columns")))
           [] TRAFFIC "secret" fresh (Exception "no columns")).
  reflexivity.
Defined.

(** ** The calls of one invocation *)

(** One invocation makes its library calls in a fixed order and each at
    most once: configure, build the model, describe the given table, submit
    the prompt built from what describe returned.  The calls added to the
    trace are an initial part of that sequence, so at most one prompt is
    submitted and never before the table was described. *)
Theorem generate_insight_call_discipline :
  forall (w : World) (df : pd.DataFrame) (domain api_key : string) (s : State),
    exists calls : list Event,
      trace (snd (generate_insight w df domain api_key s)) = (trace s ++ calls)%list
      /\ (calls = []
          \/ calls = [CallConfigure api_key]
          \/ calls = [CallConfigure api_key; CallGenerativeModel MODEL_NAME]
          \/ calls = [CallConfigure api_key; CallGenerativeModel MODEL_NAME; CallDescribe df]
          \/ exists stats : string,
               describe_to_string w df = Returns stats
               /\ calls = [CallConfigure api_key; CallGenerativeModel MODEL_NAME;
                           CallDescribe df;
                           CallGenerateContent MODEL_NAME (task_prompt domain stats)])
      /\ length (prompts_submitted calls) <= 1.
Proof.
  intros w df domain api_key s.
  destruct api_key as [|c k].
  { exists []. simpl. rewrite app_nil_r. auto. }
  destruct (configure w (String c k)) as [[]|e1] eqn:Hcfg.
  - destruct (GenerativeModel w MODEL_NAME) as [[]|e2] eqn:Hmod.
    + rewrite generate_insight_after_setup by (assumption || discriminate).
      destruct (describe_to_string w df) as [stats|e3] eqn:Hdesc.
      * eexists. split; [reflexivity|]. split; [|simpl; lia].
        do 4 right. exists stats. auto.
      * eexists. split; [reflexivity|]. split; [|simpl; lia]. auto.
    + exists [CallConfigure (String c k); CallGenerativeModel MODEL_NAME].
      unfold generate_insight. unfold_py. simpl. rewrite Hcfg. simpl. rewrite Hmod. simpl.
      rewrite <- app_assoc. simpl. auto 6.
  - exists [CallConfigure (String c k)].
    unfold generate_insight. unfold_py. simpl. rewrite Hcfg. simpl. auto.
Qed.

(** ** Answers that cannot be read *)

(** When the generation call returns but reading [response.parts] raises,
    or the parts are there and reading [response.text] raises, the outer
    handler turns the exception into the generation-error report. *)
Theorem generate_insight_unreadable_answer_reported :
  forall (w : World) (df : pd.DataFrame) (domain api_key : string) (s : State)
         (stats : string) (response : Response) (e : PyException),
    api_key <> "" ->
    configure w api_key = Returns tt ->
    GenerativeModel w MODEL_NAME = Returns tt ->
    describe_to_string w df = Returns stats ->
    generate_content w (Some api_key) MODEL_NAME (task_prompt domain stats) = Returns response ->
    (parts response = Raises e
     \/ (exists (p : Part) (ps : list Part),
            parts response = Returns (p :: ps) /\ text response = Raises e)) ->
    fst (generate_insight w df domain api_key s) = Returns ("生成錯誤: " ++ str e).
Proof.
  intros w df domain api_key s stats response e Hkey Hcfg Hmod Hdesc Hgen Hread.
  rewrite generate_insight_after_setup by assumption.
  rewrite Hdesc, Hgen.
  destruct Hread as [Hp | (p & ps & Hp & Ht)]; rewrite Hp; [|rewrite Ht]; reflexivity.
Qed.

Lemma generate_insight_unreadable_answer_reported_witness :
  fst (generate_insight (stub_world (Returns tt) (Returns textless) (Returns "count 7"))
         (get_mock_data TRAFFIC) TRAFFIC "secret" fresh)
  = Returns ("生成錯誤: " ++ "not a text part").
Proof.
  apply (generate_insight_unreadable_answer_reported
           (stub_world (Returns tt) (Returns textless) (Returns "count 7"))
           (get_mock_data TRAFFIC) TRAFFIC "secret" fresh "count 7" textless
           (Exception "not a text part"));
    try solve [discriminate | reflexivity].
  right. exists (TextPart ""), []. split; reflexivity.
Defined.

(** ** The statistics inside the prompt *)

Lemma list_ascii_of_string_append (a b : string) :
  list_ascii_of_string (a ++ b)
  = (list_ascii_of_string a ++ list_ascii_of_string b)%list.
Proof.
  induction a as [|c a IH]; simpl; [reflexivity | now rewrite IH].
Qed.

Lemma append_inv_tail (a b q : string) : a ++ q = b ++ q -> a = b.
Proof.
  intros H. apply (f_equal list_ascii_of_string) in H.
  rewrite !list_ascii_of_string_append in H. apply app_inv_tail in H.
  rewrite <- (string_of_list_ascii_of_string a), <- (string_of_list_ascii_of_string b).
  now rewrite H.
Qed.

(** Either template is a fixed text before and a fixed text after the
    statistics. *)
Lemma task_prompt_frame (domain : string) :
  exists before after : string,
    forall stats : string, task_prompt domain stats = before ++ stats ++ after.
Proof.
  unfold task_prompt. destruct (domain =? TRAFFIC)%string.
  - exists (nl ++ indent ++ role_prompt domain
            ++ nl ++ indent ++ "請分析以下交通數據統計值：" ++ nl ++ indent).
    eexists. intros stats. rewrite !append_assoc. reflexivity.
  - exists (nl ++ indent ++ role_prompt domain
            ++ nl ++ indent ++ "請分析以下機台感測數據統計值：" ++ nl ++ indent).
    eexists. intros stats. rewrite !append_assoc. reflexivity.
Qed.

(** The statistics text is passed on unabridged: it occurs in the prompt,
    and two prompts of the same domain are equal only if their statistics
    texts are. *)
Theorem task_prompt_carries_statistics :
  forall (domain stats stats' : string),
    task_prompt domain stats = task_prompt domain stats' ->
    stats = stats' /\ Contains stats (task_prompt domain stats').
Proof.
  intros domain stats stats' H.
  destruct (task_prompt_frame domain) as (before & after & Hframe).
  rewrite !Hframe in H. apply append_inv_head, append_inv_tail in H.
  split; [exact H|]. subst stats'. rewrite Hframe. now exists before, after.
Qed.

Lemma task_prompt_carries_statistics_witness :
  "count 7" = "count 7" /\ Contains "count 7" (task_prompt FACTORY "count 7").
Proof.
  apply (task_prompt_carries_statistics FACTORY "count 7" "count 7"). reflexivity.
Defined.

(** ** What the chart shows *)

(** Every line of the chart is drawn from the table itself against the
    column named Time, is labelled with the name of the column it plots,
    and plots one of the first two numeric columns of the table: text
    columns and further numeric columns are never plotted. *)
Theorem chart_block_lines_are_leading_numeric_columns :
  forall (df data : pd.DataFrame) (x y : string) (on : Axes) (color : option string)
         (label : string),
    In (sns_lineplot data x y on color label) (chart_block df) ->
    data = df /\ x = "Time" /\ label = y
    /\ In y (firstn 2 (pd.columns (pd.select_dtypes_number df)))
    /\ exists values : pd.Series, In (y, values) df /\ pd.is_number values = true.
Proof.
  intros df data x y on color label. unfold chart_block, pd.columns.
  rewrite length_map. unfold pd.select_dtypes_number.
  destruct (filter (fun c => pd.is_number (snd c)) df) as [|[n0 v0] [|[n1 v1] t]] eqn:Hf;
    simpl; try (intros [H|[]]; discriminate H).
  assert (H0 : In (n0, v0) df /\ pd.is_number v0 = true).
  { apply (filter_In (fun c => pd.is_number (snd c)) (n0, v0) df). rewrite Hf. now left. }
  assert (H1 : In (n1, v1) df /\ pd.is_number v1 = true).
  { apply (filter_In (fun c => pd.is_number (snd c)) (n1, v1) df). rewrite Hf.
    right. now left. }
  intros [H|[H|[H|[H|[H|[]]]]]]; try discriminate H;
    injection H as <- <- <- <- <- <-; repeat split; eauto.
Qed.

Lemma chart_block_lines_are_leading_numeric_columns_witness :
  uploaded_AB = uploaded_AB /\ "Time" = "Time" /\ "B" = "B"
  /\ In "B" (firstn 2 (pd.columns (pd.select_dtypes_number uploaded_AB)))
  /\ exists values : pd.Series, In ("B", values) uploaded_AB /\ pd.is_number values = true.
Proof.
  apply (chart_block_lines_are_leading_numeric_columns
           uploaded_AB uploaded_AB "Time" "B" ax2 (Some "orange") "B").
  simpl. auto 6.
Defined.

(** ** Domains other than the two options *)

(** A domain string other than the Traffic option is treated as Factory by
    the sample provider and by the prompt builder alike, so the table and
    the prompt of one domain never belong to different presets. *)
Theorem unknown_domain_is_factory :
  forall (domain stats : string),
    domain <> TRAFFIC ->
    get_mock_data domain = get_mock_data FACTORY
    /\ role_prompt domain = role_prompt FACTORY
    /\ task_prompt domain stats = task_prompt FACTORY stats.
Proof.
  intros domain stats Hd. apply String.eqb_neq in Hd.
  assert (Hf : (FACTORY =? TRAFFIC)%string = false) by (vm_compute; reflexivity).
  unfold get_mock_data, task_prompt, role_prompt. rewrite Hd, Hf. auto.
Qed.

Lemma unknown_domain_is_factory_witness :
  get_mock_data "" = get_mock_data FACTORY
  /\ role_prompt "" = role_prompt FACTORY
  /\ task_prompt "" "count 7" = task_prompt FACTORY "count 7".
Proof.
  apply (unknown_domain_is_factory "" "count 7"). discriminate.
Defined.

(** ** The page script *)

Lemma bindP_ext {A B : Type} (m : P A) (k k' : A -> P B) (p : Page) :
  (forall (a : A) (p' : Page), k a p' = k' a p') ->
  bindP m k p = bindP m k' p.
Proof.
  intros H. unfold bindP. destruct (m p) as [[a|e] p']; [apply H | reflexivity].
Qed.

Lemma bind_widget_ext {A B : Type} (site : Site) (pl : Place) (el : Element)
      (v v' : A) (k k' : A -> P B) (p : Page) :
  (forall p' : Page, k v p' = k' v' p') ->
  bindP (widget site pl el v) k p = bindP (widget site pl el v') k' p.
Proof.
  intros H. unfold widget, bindP, show, retP.
  destruct (render site pl el) as [[]|e]; [apply H | reflexivity].
Qed.

Lemma keeps_retP {A : Type} (a : A) : keeps_backend (retP a).
Proof. intros p. reflexivity. Qed.

Lemma keeps_evalP {A : Type} (r : result A) : keeps_backend (evalP r).
Proof. intros p. reflexivity. Qed.

Lemma keeps_show (site : Site) (pl : Place) (el : Element) :
  keeps_backend (show site pl el).
Proof. intros p. reflexivity. Qed.

Lemma keeps_bindP {A B : Type} (m : P A) (k : A -> P B) :
  keeps_backend m -> (forall a : A, keeps_backend (k a)) -> keeps_backend (bindP m k).
Proof.
  intros Hm Hk p. unfold bindP. specialize (Hm p).
  destruct (m p) as [[a|e] p']; simpl in *; [|exact Hm].
  now rewrite Hk.
Qed.

Lemma keeps_widget {A : Type} (site : Site) (pl : Place) (el : Element) (v : A) :
  keeps_backend (widget site pl el v).
Proof.
  apply keeps_bindP; [apply keeps_show | intros; apply keeps_retP].
Qed.

Lemma keeps_bind_widget {A B : Type} (site : Site) (pl : Place) (el : Element)
      (v : A) (k : A -> P B) :
  keeps_backend (k v) -> keeps_backend (bindP (widget site pl el v) k).
Proof.
  intros Hk p. unfold widget, bindP, show, retP.
  destruct (render site pl el) as [[]|e]; [|reflexivity].
  now rewrite Hk.
Qed.

Lemma keeps_show_all (site : Site) (pl : Place) (els : list Element) :
  keeps_backend (show_all site pl els).
Proof.
  induction els as [|el els IH]; simpl.
  - apply keeps_retP.
  - apply keeps_bindP; [apply keeps_show | intros; exact IH].
Qed.

Lemma keeps_load_table (site : Site) (uploaded : option string) (domain : string) :
  keeps_backend (load_table site uploaded domain).
Proof.
  destruct uploaded as [file|]; simpl.
  - apply keeps_evalP.
  - apply keeps_bindP; [apply keeps_show | intros; apply keeps_retP].
Qed.

(** Without a press of the button a run of the script leaves the library
    state alone: no credential is installed and no call to the generative
    client or to the statistics is made, whatever was typed or uploaded and
    whatever the front end and the CSV reader do. *)
Theorem script_without_button_keeps_backend :
  forall (site : Site) (inp : Inputs) (p : Page),
    button_pressed inp = false ->
    backend (snd (script site inp p)) = backend p.
Proof.
  intros site inp p Hb. revert p. change (keeps_backend (script site inp)).
  unfold script.
  repeat first
    [ apply keeps_bind_widget
    | apply keeps_bindP; [ first [ apply keeps_show | apply keeps_show_all
                                 | apply keeps_load_table ] | intros ? ] ].
  rewrite Hb.
  apply keeps_bindP; [apply keeps_retP | intros _].
  apply keeps_bindP; [apply keeps_show | intros _; apply keeps_show].
Qed.

Lemma script_without_button_keeps_backend_witness :
  backend (snd (script (broken_site rejecting_world)
                  {| typed_key := "secret"; selected := 1;
                     uploaded_file := Some "Time,A"; button_pressed := false |}
                  blank)) = backend blank.
Proof.
  apply (script_without_button_keeps_backend (broken_site rejecting_world)
           {| typed_key := "secret"; selected := 1;
              uploaded_file := Some "Time,A"; button_pressed := false |} blank).
  reflexivity.
Defined.

Lemma show_healthy (site : Site) (pl : Place) (el : Element) (p : Page) :
  healthy site ->
  show site pl el p
  = (Returns tt, {| backend := backend p; screen := (screen p ++ [(pl, el)])%list |}).
Proof.
  intros H. unfold show. now rewrite H.
Qed.

Lemma show_all_healthy (site : Site) (pl : Place) (els : list Element) (p : Page) :
  healthy site ->
  show_all site pl els p
  = (Returns tt,
     {| backend := backend p; screen := (screen p ++ map (pair pl) els)%list |}).
Proof.
  intros H. revert p. induction els as [|el els IH]; intros p; simpl.
  - unfold retP. rewrite app_nil_r. now destruct p.
  - unfold bindP. rewrite (show_healthy _ _ _ _ H). rewrite IH. simpl.
    now rewrite <- app_assoc.
Qed.

Lemma shown_shown (p : Page) (els els' : list (Place * Element)) :
  shown (shown p els) els' = shown p (els ++ els').
Proof.
  unfold shown. simpl. now rewrite app_assoc.
Qed.

Lemma bind_show_healthy {B : Type} (site : Site) (pl : Place) (el : Element)
      (k : unit -> P B) (p : Page) :
  healthy site ->
  bindP (show site pl el) k p = k tt (shown p [(pl, el)]).
Proof.
  intros H. unfold bindP. now rewrite (show_healthy _ _ _ _ H).
Qed.

Lemma bind_widget_healthy {A B : Type} (site : Site) (pl : Place) (el : Element)
      (v : A) (k : A -> P B) (p : Page) :
  healthy site ->
  bindP (widget site pl el v) k p = k v (shown p [(pl, el)]).
Proof.
  intros H. unfold widget, bindP. now rewrite (show_healthy _ _ _ _ H).
Qed.

Lemma bind_show_all_healthy {B : Type} (site : Site) (pl : Place) (els : list Element)
      (k : unit -> P B) (p : Page) :
  healthy site ->
  bindP (show_all site pl els) k p = k tt (shown p (map (pair pl) els)).
Proof.
  intros H. unfold bindP. now rewrite (show_all_healthy _ _ _ _ H).
Qed.

Lemma bindP_assoc {A B C : Type} (m : P A) (k : A -> P B) (k' : B -> P C) (p : Page) :
  bindP (bindP m k) k' p = bindP m (fun a => bindP (k a) k') p.
Proof.
  unfold bindP. destruct (m p) as [[a|e] p']; reflexivity.
Qed.

Lemma bind_in_backend {A B : Type} (m : M A) (k : A -> P B) (p : Page) :
  bindP (in_backend m) k p
  = match m (backend p) with
    | (Returns a, s') => k a {| backend := s'; screen := screen p |}
    | (Raises e, s') => (Raises e, {| backend := s'; screen := screen p |})
    end.
Proof.
  unfold bindP, in_backend. destruct (m (backend p)) as [[a|e] s']; reflexivity.
Qed.

Ltac page_steps H :=
  repeat (first [ rewrite bindP_assoc
                | rewrite (bind_show_healthy _ _ _ _ _ H)
                | rewrite (bind_widget_healthy _ _ _ _ _ _ H)
                | rewrite (bind_show_all_healthy _ _ _ _ _ H) ];
          cbv beta; rewrite ?shown_shown).

(** With a healthy front end, a run of the script is decided by the table
    it loads, the button, and the outcome of [generate_insight]. *)
Lemma script_healthy (site : Site) (inp : Inputs) (p : Page) :
  healthy site ->
  script site inp p =
  match table_of site inp with
  | Raises e =>
      (Raises e, {| backend := backend p; screen := (screen p ++ page_head)%list |})
  | Returns df =>
      if button_pressed inp then
        match generate_insight (libs site) df (selected_domain inp) (typed_key inp)
                (backend p) with
        | (Returns report, s') =>
            (Returns tt,
             {| backend := s';
                screen := (screen p ++ page_head ++ page_table inp df ++ page_trigger
                           ++ page_spinner :: page_report report ++ page_foot)%list |})
        | (Raises e, s') =>
            (Raises e,
             {| backend := s';
                screen := (screen p ++ page_head ++ page_table inp df ++ page_trigger
                           ++ [page_spinner])%list |})
        end
      else
        (Returns tt,
         {| backend := backend p;
            screen := (screen p ++ page_head ++ page_table inp df ++ page_trigger
                       ++ page_foot)%list |})
  end.
Proof.
  intros H. unfold script. page_steps H.
  unfold load_table, table_of, selected_domain.
  destruct (uploaded_file inp) as [file|] eqn:Hup.
  - unfold bindP at 1, evalP.
    destruct (read_csv site file) as [df|e]; [|reflexivity].
    page_steps H.
    destruct (button_pressed inp).
    + unfold analysis. page_steps H.
      rewrite bind_in_backend. cbn [backend screen shown].
      destruct (generate_insight (libs site) df
                  (selectbox domain_options (selected inp)) (typed_key inp) (backend p))
        as [[report|e] s'].
      * page_steps H. rewrite (show_healthy _ _ _ _ H). unfold page_table.
        rewrite Hup. cbn [backend screen shown]. rewrite <- !app_assoc. reflexivity.
      * unfold page_table. rewrite Hup. rewrite <- !app_assoc. reflexivity.
    + unfold bindP at 1, retP. page_steps H. rewrite (show_healthy _ _ _ _ H).
      unfold page_table. rewrite Hup. cbn [backend screen shown].
      rewrite <- !app_assoc. reflexivity.
  - page_steps H. unfold bindP at 1, retP. page_steps H.
    destruct (button_pressed inp).
    + unfold analysis. page_steps H.
      rewrite bind_in_backend. cbn [backend screen shown].
      destruct (generate_insight (libs site)
                  (get_mock_data (selectbox domain_options (selected inp)))
                  (selectbox domain_options (selected inp)) (typed_key inp) (backend p))
        as [[report|e] s'].
      * page_steps H. rewrite (show_healthy _ _ _ _ H). unfold page_table.
        rewrite Hup. cbn [backend screen shown]. rewrite <- !app_assoc. reflexivity.
      * unfold page_table. rewrite Hup. rewrite <- !app_assoc. reflexivity.
    + unfold bindP at 1, retP. page_steps H. rewrite (show_healthy _ _ _ _ H).
      unfold page_table. rewrite Hup. cbn [backend screen shown].
      rewrite <- !app_assoc. reflexivity.
Qed.

(** When the button is pressed and [generate_insight] returns, the script
    writes the returned report under the result heading and then shows the
    success message, whatever the report is: an answer, or one of the
    reports that stand for a failure. *)
Theorem script_writes_report_then_success :
  forall (site : Site) (inp : Inputs) (p : Page) (df : pd.DataFrame)
         (report : string) (s' : State),
    healthy site ->
    button_pressed inp = true ->
    table_of site inp = Returns df ->
    generate_insight (libs site) df (selected_domain inp) (typed_key inp) (backend p)
    = (Returns report, s') ->
    exists before : list (Place * Element),
      script site inp p
      = (Returns tt,
         {| backend := s';
            screen := (screen p ++ before
                       ++ [ (in_col2, st_markdown RESULT_HEADING);
                            (in_col2, st_write report);
                            (in_col2, st_success SUCCESS_MESSAGE) ]
                       ++ page_foot)%list |}).
Proof.
  intros site inp p df report s' H Hb Ht Hrun.
  exists (page_head ++ page_table inp df ++ page_trigger ++ [page_spinner])%list.
  rewrite (script_healthy _ _ _ H), Ht, Hb, Hrun.
  unfold page_report. rewrite <- !app_assoc. reflexivity.
Qed.

Lemma script_writes_report_then_success_witness :
  exists before : list (Place * Element),
    script (quiet_site rejecting_world (Returns uploaded_AB))
      {| typed_key := ""; selected := 0; uploaded_file := None; button_pressed := true |}
      blank
    = (Returns tt,
       {| backend := fresh;
          screen := (screen blank ++ before
                     ++ [ (in_col2, st_markdown RESULT_HEADING);
                          (in_col2, st_write MISSING_KEY_REPORT);
                          (in_col2, st_success SUCCESS_MESSAGE) ]
                     ++ page_foot)%list |}).
Proof.
  apply (script_writes_report_then_success
           (quiet_site rejecting_world (Returns uploaded_AB))
           {| typed_key := ""; selected := 0; uploaded_file := None; button_pressed := true |}
           blank (get_mock_data TRAFFIC) MISSING_KEY_REPORT fresh);
    solve [reflexivity | intros pl el; reflexivity].
Defined.

(** When the statistics step raises during the analysis, the exception
    leaves the script: the run stops right after the spinner, so neither
    the result heading, a report, the success message nor the footer is
    issued. *)
Theorem script_stops_when_statistics_fail :
  forall (site : Site) (inp : Inputs) (p : Page) (df : pd.DataFrame) (e : PyException),
    healthy site ->
    button_pressed inp = true ->
    table_of site inp = Returns df ->
    typed_key inp <> "" ->
    configure (libs site) (typed_key inp) = Returns tt ->
    GenerativeModel (libs site) MODEL_NAME = Returns tt ->
    describe_to_string (libs site) df = Raises e ->
    script site inp p
    = (Raises e,
       {| backend :=
            {| credential := Some (typed_key inp);
               trace := (trace (backend p)
                         ++ [CallConfigure (typed_key inp);
                             CallGenerativeModel MODEL_NAME; CallDescribe df])%list |};
          screen := (screen p ++ page_head ++ page_table inp df ++ page_trigger
                     ++ [page_spinner])%list |}).
Proof.
  intros site inp p df e H Hb Ht Hkey Hcfg Hmod Hdesc.
  rewrite (script_healthy _ _ _ H), Ht, Hb.
  rewrite generate_insight_after_setup by assumption.
  rewrite Hdesc. reflexivity.
Qed.

Lemma script_stops_when_statistics_fail_witness :
  script (quiet_site (stub_world (Returns tt) (Returns (answer "OK"))
                        (Raises (Exception "no columns")))
            (Returns []))
    {| typed_key := "secret"; selected := 0; uploaded_file := Some "";
       button_pressed := true |}
    blank
  = (Raises (Exception "no columns"),
     {| backend :=
          {| credential := Some "secret";
             trace := ([] ++ [CallConfigure "secret"; CallGenerativeModel MODEL_NAME;
                              CallDescribe []])%list |};
        screen := ([] ++ page_head
                   ++ page_table {| typed_key := "secret"; selected := 0;
                                    uploaded_file := Some ""; button_pressed := true |} []
                   ++ page_trigger ++ [page_spinner])%list |}).
Proof.
  apply (script_stops_when_statistics_fail
           (quiet_site (stub_world (Returns tt) (Returns (answer "OK"))
                          (Raises (Exception "no columns")))
              (Returns []))
           {| typed_key := "secret"; selected := 0; uploaded_file := Some "";
              button_pressed := true |}
           blank [] (Exception "no columns"));
    solve [reflexivity | discriminate | intros pl el; reflexivity].
Defined.

(** When the CSV reader raises on the uploaded file, the script stops at
    the file uploader: no table, chart or button is issued, the sample data
    is not used instead, and the library state is untouched even if the
    button was pressed. *)
Theorem script_stops_when_upload_unreadable :
  forall (site : Site) (inp : Inputs) (p : Page) (file : string) (e : PyException),
    healthy site ->
    uploaded_file inp = Some file ->
    read_csv site file = Raises e ->
    script site inp p
    = (Raises e, {| backend := backend p; screen := (screen p ++ page_head)%list |}).
Proof.
  intros site inp p file e H Hup Hcsv.
  rewrite (script_healthy _ _ _ H). unfold table_of. now rewrite Hup, Hcsv.
Qed.

Lemma script_stops_when_upload_unreadable_witness :
  script (quiet_site rejecting_world (Raises (Exception "bad csv")))
    {| typed_key := "secret"; selected := 1; uploaded_file := Some "Time;A;B";
       button_pressed := true |}
    blank
  = (Raises (Exception "bad csv"),
     {| backend := backend blank; screen := (screen blank ++ page_head)%list |}).
Proof.
  apply (script_stops_when_upload_unreadable
           (quiet_site rejecting_world (Raises (Exception "bad csv")))
           {| typed_key := "secret"; selected := 1; uploaded_file := Some "Time;A;B";
              button_pressed := true |}
           blank "Time;A;B" (Exception "bad csv"));
    solve [reflexivity | intros pl el; reflexivity].
Defined.

(** One table serves the whole run: the uploaded table if there is one,
    otherwise the sample of the selected domain (announced by the sample
    caption).  It is the table displayed and charted, and on a press of the
    button the one [generate_insight] is run on, with the selected domain
    and the typed credential; without a press the library state is left as
    it was. *)
Theorem script_uses_one_table :
  forall (site : Site) (inp : Inputs) (p : Page) (df : pd.DataFrame),
    healthy site ->
    table_of site inp = Returns df ->
    (exists rest : list (Place * Element),
        screen (snd (script site inp p))
        = (screen p ++ page_head
           ++ (match uploaded_file inp with
               | Some _ => []
               | None => [(in_col1, st_caption SAMPLE_CAPTION)]
               end)
           ++ (in_col1, st_dataframe_highlight_max df 0 "lightcoral")
           :: map (pair in_col1) (map plot (chart_block df))
           ++ rest)%list)
    /\ backend (snd (script site inp p))
       = (if button_pressed inp
          then snd (generate_insight (libs site) df (selected_domain inp) (typed_key inp)
                      (backend p))
          else backend p).
Proof.
  intros site inp p df H Ht.
  rewrite (script_healthy _ _ _ H), Ht. unfold page_table.
  destruct (button_pressed inp).
  - destruct (generate_insight (libs site) df (selected_domain inp) (typed_key inp)
                (backend p)) as [[report|e] s']; simpl; (split; [|reflexivity]);
      eexists; rewrite <- !app_assoc; simpl; reflexivity.
  - simpl. split; [|reflexivity].
    eexists. rewrite <- !app_assoc. simpl. reflexivity.
Qed.

Lemma script_uses_one_table_witness :
  (exists rest : list (Place * Element),
      screen (snd (script (quiet_site rejecting_world (Returns uploaded_AB))
                     {| typed_key := "bad"; selected := 0;
                        uploaded_file := Some "Time,A,B"; button_pressed := true |}
                     blank))
      = (screen blank ++ page_head ++ []
         ++ (in_col1, st_dataframe_highlight_max uploaded_AB 0 "lightcoral")
         :: map (pair in_col1) (map plot (chart_block uploaded_AB))
         ++ rest)%list)
  /\ backend (snd (script (quiet_site rejecting_world (Returns uploaded_AB))
                     {| typed_key := "bad"; selected := 0;
                        uploaded_file := Some "Time,A,B"; button_pressed := true |}
                     blank))
     = snd (generate_insight rejecting_world uploaded_AB TRAFFIC "bad" fresh).
Proof.
  apply (script_uses_one_table
           (quiet_site rejecting_world (Returns uploaded_AB))
           {| typed_key := "bad"; selected := 0;
              uploaded_file := Some "Time,A,B"; button_pressed := true |}
           blank uploaded_AB);
    solve [reflexivity | intros pl el; reflexivity].
Defined.

(** Without a press of the button the credential plays no part in the run:
    two runs that differ only in what was typed into the key field issue
    the same front-end calls and end in the same state, whatever the front
    end and the CSV reader do. *)
Theorem script_without_button_ignores_credential :
  forall (site : Site) (key key' : string) (choice : nat) (uploaded : option string)
         (p : Page),
    script site {| typed_key := key; selected := choice;
                   uploaded_file := uploaded; button_pressed := false |} p
    = script site {| typed_key := key'; selected := choice;
                     uploaded_file := uploaded; button_pressed := false |} p.
Proof.
  intros site key key' choice uploaded p. unfold script. cbn [typed_key selected
    uploaded_file button_pressed].
  do 4 (apply bindP_ext; intros ? ?).
  apply bind_widget_ext; intros ?.
  do 10 (apply bindP_ext; intros ? ?).
  apply bind_widget_ext; intros ?.
  reflexivity.
Qed.

(** ** Running the chart block *)

Lemma show_all_returning (site : Site) (pl : Place) (els : list Element) (p : Page) :
  (forall el : Element, In el els -> render site pl el = Returns tt) ->
  show_all site pl els p = (Returns tt, shown p (map (pair pl) els)).
Proof.
  revert p. induction els as [|el els IH]; intros p Hret; simpl.
  - unfold retP, shown. rewrite app_nil_r. now destruct p.
  - unfold bindP, show. rewrite (Hret el (or_introl eq_refl)).
    rewrite IH by (intros el' Hin; apply Hret; now right).
    unfold shown. simpl. now rewrite <- app_assoc.
Qed.

(** The calls are issued up to the first one that raises. *)
Lemma show_all_stops (site : Site) (pl : Place) (done : list Element) (el : Element)
      (rest : list Element) (e : PyException) (p : Page) :
  (forall el' : Element, In el' done -> render site pl el' = Returns tt) ->
  render site pl el = Raises e ->
  show_all site pl (done ++ el :: rest) p
  = (Raises e, shown p (map (pair pl) (done ++ [el]))).
Proof.
  revert p. induction done as [|d done IH]; intros p Hret Hraise; simpl.
  - unfold bindP, show. rewrite Hraise. reflexivity.
  - unfold bindP, show. rewrite (Hret d (or_introl eq_refl)).
    rewrite IH by (try (intros el' Hin; apply Hret; now right); assumption).
    unfold shown. simpl. now rewrite <- app_assoc.
Qed.

Lemma filter_none {A : Type} (f : A -> bool) (l : list A) :
  forallb (fun x => negb (f x)) l = true -> filter f l = [].
Proof.
  induction l as [|x l IH]; simpl; [reflexivity|].
  destruct (f x); simpl; [discriminate | exact IH].
Qed.

(** The calls of the block for a table whose first two numeric columns are
    known. *)
Lemma chart_block_of_columns (df before between rest : pd.DataFrame)
      (first second : string * pd.Series) :
  df = (before ++ first :: between ++ second :: rest)%list ->
  forallb (fun c => negb (pd.is_number (snd c))) before = true ->
  pd.is_number (snd first) = true ->
  forallb (fun c => negb (pd.is_number (snd c))) between = true ->
  pd.is_number (snd second) = true ->
  chart_block df
  = [ plt_subplots;
      sns_lineplot df "Time" (fst first) ax None (fst first);
      ax_twinx;
      sns_lineplot df "Time" (fst second) ax2 (Some "orange") (fst second);
      st_pyplot ].
Proof.
  intros Hdf Hb H1 Hm H2.
  assert (Hcols : pd.columns (pd.select_dtypes_number df)
                  = fst first :: fst second
                    :: pd.columns (pd.select_dtypes_number rest)).
  { rewrite Hdf. unfold pd.select_dtypes_number, pd.columns.
    rewrite filter_app, (filter_none _ _ Hb). simpl. rewrite H1.
    rewrite filter_app, (filter_none _ _ Hm). simpl. rewrite H2. reflexivity. }
  unfold chart_block. rewrite Hcols. reflexivity.
Qed.

(** C8 as stated fails: on an uploaded table with two numeric columns whose
    time column is not named Time, the first line plot raises, so the run
    of the chart block ends with an exception and the second numeric column
    is never plotted on the secondary axes. *)
Lemma chart_without_time_column_stops_at_first_line :
  2 <= length (pd.select_dtypes_number untimed_AB)
  /\ run_chart (strict_site rejecting_world) untimed_AB blank
     = (Raises (Exception "Could not interpret value `Time` for `x`"),
        shown blank [ (in_col1, plot plt_subplots);
                      (in_col1, plot (sns_lineplot untimed_AB "Time" "A" ax None "A")) ]).
Proof.
  split; [simpl; lia | reflexivity].
Qed.

(** C8 (amended): with fewer than two numeric columns the only call of the
    chart block is [plt.subplots()]: no line is drawn and nothing is shown.
    Otherwise the table has a first and a second numeric column in
    declaration order; the block first asks for the first one as a line
    against the column named Time on the primary axes, labelled with its
    name; when no plotting call raises it goes on to the twin axes, the
    second column against Time there, labelled with its name, and shows the
    figure; when the first line plot raises (as on a table without a Time
    column) the run ends with that exception and nothing more is drawn. *)
Theorem run_chart_plots_first_two_numeric_columns :
  forall (site : Site) (df : pd.DataFrame) (p : Page),
    (length (pd.select_dtypes_number df) < 2 ->
     run_chart site df p
     = (render site in_col1 (plot plt_subplots),
        shown p [(in_col1, plot plt_subplots)]))
    /\ (2 <= length (pd.select_dtypes_number df) ->
        exists (before : pd.DataFrame) (first : string * pd.Series)
               (between : pd.DataFrame) (second : string * pd.Series)
               (rest : pd.DataFrame),
          df = (before ++ first :: between ++ second :: rest)%list
          /\ forallb (fun c => negb (pd.is_number (snd c))) before = true
          /\ pd.is_number (snd first) = true
          /\ forallb (fun c => negb (pd.is_number (snd c))) between = true
          /\ pd.is_number (snd second) = true)
    /\ (forall (before : pd.DataFrame) (first : string * pd.Series)
               (between : pd.DataFrame) (second : string * pd.Series)
               (rest : pd.DataFrame),
          df = (before ++ first :: between ++ second :: rest)%list ->
          forallb (fun c => negb (pd.is_number (snd c))) before = true ->
          pd.is_number (snd first) = true ->
          forallb (fun c => negb (pd.is_number (snd c))) between = true ->
          pd.is_number (snd second) = true ->
          (plots_return site df ->
           run_chart site df p
           = (Returns tt,
              shown p
                [ (in_col1, plot plt_subplots);
                  (in_col1, plot (sns_lineplot df "Time" (fst first) ax None (fst first)));
                  (in_col1, plot ax_twinx);
                  (in_col1, plot (sns_lineplot df "Time" (fst second) ax2 (Some "orange")
                                               (fst second)));
                  (in_col1, plot st_pyplot) ]))
          /\ (forall e : PyException,
                 render site in_col1 (plot plt_subplots) = Returns tt ->
                 render site in_col1
                   (plot (sns_lineplot df "Time" (fst first) ax None (fst first)))
                 = Raises e ->
                 run_chart site df p
                 = (Raises e,
                    shown p
                      [ (in_col1, plot plt_subplots);
                        (in_col1,
                         plot (sns_lineplot df "Time" (fst first) ax None (fst first))) ]))).
Proof.
  intros site df p. split; [|split].
  - intros Hlt. unfold run_chart, chart_block, pd.columns. rewrite length_map.
    apply Nat.leb_gt in Hlt. rewrite Hlt. simpl.
    unfold bindP, show, retP, shown.
    destruct (render site in_col1 (plot plt_subplots)) as [[]|e]; reflexivity.
  - intros Hge. unfold pd.select_dtypes_number in *.
    destruct (filter (fun c => pd.is_number (snd c)) df) as [|c0 [|c1 t]] eqn:Hf;
      simpl in Hge; try lia.
    destruct (filter_cons_inv _ _ _ _ Hf) as (before & l1 & -> & Hb & H0 & Hf1).
    destruct (filter_cons_inv _ _ _ _ Hf1) as (between & rest & -> & Hm & H1 & _).
    exists before, c0, between, c1, rest. auto.
  - intros before first between second rest Hdf Hb H1 Hm H2.
    pose proof (chart_block_of_columns df before between rest first second
                  Hdf Hb H1 Hm H2) as Hcalls.
    split.
    + intros Hret. unfold run_chart.
      rewrite show_all_returning.
      * rewrite Hcalls. reflexivity.
      * intros el Hin. apply in_map_iff in Hin. destruct Hin as (c & <- & Hc).
        now apply Hret.
    + intros e Hsub Hline. unfold run_chart. rewrite Hcalls.
      change (map plot
                [plt_subplots; sns_lineplot df "Time" (fst first) ax None (fst first);
                 ax_twinx;
                 sns_lineplot df "Time" (fst second) ax2 (Some "orange") (fst second);
                 st_pyplot])
        with ([plot plt_subplots]
              ++ plot (sns_lineplot df "Time" (fst first) ax None (fst first))
              :: [plot ax_twinx;
                  plot (sns_lineplot df "Time" (fst second) ax2 (Some "orange")
                                     (fst second));
                  plot st_pyplot])%list.
      rewrite (show_all_stops site in_col1 _ _ _ e p).
      * reflexivity.
      * intros el' [<-|[]]. exact Hsub.
      * exact Hline.
Qed.

Lemma run_chart_plots_first_two_numeric_columns_witness :
  run_chart (quiet_site rejecting_world (Returns uploaded_AB))
    [("Time", pd.Object ["t1"]); ("A", pd.Int64 [1%Z])] blank
  = (Returns tt, shown blank [(in_col1, plot plt_subplots)])
  /\ run_chart (quiet_site rejecting_world (Returns uploaded_AB)) uploaded_AB blank
     = (Returns tt,
        shown blank
          [ (in_col1, plot plt_subplots);
            (in_col1, plot (sns_lineplot uploaded_AB "Time" "A" ax None "A"));
            (in_col1, plot ax_twinx);
            (in_col1, plot (sns_lineplot uploaded_AB "Time" "B" ax2 (Some "orange") "B"));
            (in_col1, plot st_pyplot) ])
  /\ run_chart (strict_site rejecting_world) untimed_AB blank
     = (Raises (Exception "Could not interpret value `Time` for `x`"),
        shown blank
          [ (in_col1, plot plt_subplots);
            (in_col1, plot (sns_lineplot untimed_AB "Time" "A" ax None "A")) ]).
Proof.
  split; [|split].
  - apply (run_chart_plots_first_two_numeric_columns
             (quiet_site rejecting_world (Returns uploaded_AB))
             [("Time", pd.Object ["t1"]); ("A", pd.Int64 [1%Z])] blank).
    simpl. lia.
  - destruct (run_chart_plots_first_two_numeric_columns
                (quiet_site rejecting_world (Returns uploaded_AB)) uploaded_AB blank)
      as (_ & _ & Hrun).
    apply (Hrun [("Time", pd.Object ["t1"; "t2"; "t3"; "t4"; "t5"])]
                ("A", pd.Int64 [1; 2; 3; 4; 5]%Z) []
                ("B", pd.Int64 [10; 20; 30; 40; 50]%Z) []);
      try reflexivity.
    intros c Hc. reflexivity.
  - destruct (run_chart_plots_first_two_numeric_columns
                (strict_site rejecting_world) untimed_AB blank)
      as (_ & _ & Hrun).
    apply (Hrun [("時間", pd.Object ["t1"; "t2"; "t3"; "t4"; "t5"])]
                ("A", pd.Int64 [1; 2; 3; 4; 5]%Z) []
                ("B", pd.Int64 [10; 20; 30; 40; 50]%Z) []);
      reflexivity.
Defined.
